(** * neon-wallet: the account-session actions of [app/actions/authActions.js]

    A shallow embedding of the four login actions, the connectivity probe and
    the logout action, together with the collaborators they call
    (neon-js' [wallet], the passphrase policy, the address-book upgrade, the
    DNS resolver, the balance reset and the ledger signing bridge).

    Every action is an [async] function in the source.  Its embedding is a
    computation in a small monad that records, in order, the calls made to
    the collaborators and ends either with a value (the promise resolves) or
    with an exception (the promise rejects). *)

From Stdlib Require Import String List Bool ZArith Arith Lia.
Import ListNotations.
Open Scope string_scope.
Open Scope list_scope.

(** ** JavaScript values *)

(** [new Error(message)]: what the actions throw and what a rejected
    promise carries. *)
Inductive exn : Type :=
| Error (message : string).

(** A call that returns normally ([inr]) or throws / rejects ([inl]). *)
Definition Result (A : Type) : Type := (exn + A)%type.

(** The functions that end up in a session.  [ledgerNanoSCreateSignatureAsync]
    is the hardware bridge of [app/ledger/ledgerNanoS]; a call
    [bindArgsFromN(fn, n, ...boundArgs)] of [app/util/bindHelpers] is kept as
    the closure it returns: the function and the arguments it captured. *)
Inductive JsFunction : Type :=
| ledgerNanoSCreateSignatureAsync
| bindArgsFromN (fn : JsFunction) (n : Z) (boundArgs : list Z).

(** The non-null part of Flow's [AccountType]; an optional field that the
    object literal does not mention is [None]. *)
Record AccountObject : Type := {
  address : string;
  wif : option string;
  publicKey : option string;
  signingFunction : option JsFunction;
  isHardwareLogin : bool;
  isWatchOnly : option bool;
  hasInternetConnectivity : bool;
}.

(** [type AccountType = ?{ ... }]: [None] is [null]. *)
Definition AccountType : Type := option AccountObject.

(** ** Collaborators *)

(** [wallet] of [@cityofzion/neon-js]: the validation predicates, the NEP2
    decryption, the [Account] class (its constructor and the two getters the
    actions read) and the public-key encoder. *)
Record Wallet : Type := {
  Account : Type;
  isWIF : string -> bool;
  isPrivateKey : string -> bool;
  isAddress : string -> bool;
  isNEP2 : string -> bool;
  decryptAsync : string -> string -> Result string;
  new_Account : string -> Result Account;
  Account_WIF : Account -> Result string;
  Account_address : Account -> Result string;
  getPublicKeyEncoded : string -> Result string;
}.

(** Everything the module imports: [wallet], [validatePassphraseLength] of
    [app/core/wallet], [upgradeNEP6AddAddresses] of [app/core/account], and
    the [err] that [dns.resolve] hands to its callback ([None] is [null]). *)
Record Env : Type := {
  wallet : Wallet;
  validatePassphraseLength : string -> bool;
  upgradeNEP6AddAddresses : string -> string -> Result unit;
  dns_resolve : string -> string -> option exn;
}.

(** The same environment with another outcome of the DNS resolution. *)
Definition with_dns (env : Env) (outcome : option exn) : Env :=
  {| wallet := wallet env;
     validatePassphraseLength := validatePassphraseLength env;
     upgradeNEP6AddAddresses := upgradeNEP6AddAddresses env;
     dns_resolve := fun _ _ => outcome |}.

(** ** Observable calls *)

(** One constructor per collaborator call, with the arguments of the call. *)
Inductive Event : Type :=
| EvIsWIF (str : string)
| EvIsPrivateKey (str : string)
| EvIsAddress (str : string)
| EvIsNEP2 (str : string)
| EvValidatePassphraseLength (passphrase : string)
| EvDecryptAsync (encryptedWIF passphrase : string)
| EvNewAccount (str : string)
| EvGetPublicKeyEncoded (publicKey : string)
| EvUpgradeNEP6AddAddresses (encryptedWIF wif : string)
| EvDnsResolve (hostname rrtype : string)
| EvResetBalanceState.

Definition Trace : Type := list Event.

Definition is_decrypt (ev : Event) : bool :=
  match ev with EvDecryptAsync _ _ => true | _ => false end.

Definition is_derive (ev : Event) : bool :=
  match ev with EvNewAccount _ => true | _ => false end.

Definition is_upgrade (ev : Event) : bool :=
  match ev with EvUpgradeNEP6AddAddresses _ _ => true | _ => false end.

Definition is_probe (ev : Event) : bool :=
  match ev with EvDnsResolve _ _ => true | _ => false end.

Definition is_reset (ev : Event) : bool :=
  match ev with EvResetBalanceState => true | _ => false end.

(** How many calls of a kind a trace holds. *)
Definition calls (kind : Event -> bool) (tr : Trace) : nat :=
  length (filter kind tr).

(** ** The monad of the actions *)

Module Async.

(** The calls made so far, and how the computation ended. *)
Definition M (A : Type) : Type := (Trace * Result A)%type.

Definition ret {A} (a : A) : M A := ([], inr a).

Definition throw {A} (e : exn) : M A := ([], inl e).

(** Sequencing, and [await]: the continuation runs only when the first
    part ended with a value. *)
Definition bind {A B} (m : M A) (k : A -> M B) : M B :=
  match m with
  | (t1, inl e) => (t1, inl e)
  | (t1, inr a) => let '(t2, r) := k a in (t1 ++ t2, r)
  end.

(** A call to a collaborator: it is recorded, then returns or throws. *)
Definition call {A} (ev : Event) (outcome : Result A) : M A :=
  ([ev], outcome).

(** A property read or another step that no collaborator observes. *)
Definition lift {A} (outcome : Result A) : M A := ([], outcome).

Definition trace_of {A} (m : M A) : Trace := fst m.
Definition result_of {A} (m : M A) : Result A := snd m.

End Async.
Import Async.

Declare Scope async_scope.
Delimit Scope async_scope with async.
Notation "x <- c1 ;; c2" := (bind c1 (fun x => c2))
  (at level 61, c1 at next level, right associativity) : async_scope.
Notation "c1 ;; c2" := (bind c1 (fun _ => c2))
  (at level 61, right associativity) : async_scope.
Open Scope async_scope.

(** ** The actions *)

Section Actions.

Variable env : Env.

(** [checkForInternetConnectivity]: the promise resolves [false] when the
    callback of [dns.resolve('google.com', 'A', ...)] gets an error and
    [true] otherwise; there is no [reject]. *)
Definition checkForInternetConnectivity : M bool :=
  err <- call (EvDnsResolve "google.com" "A")
              (inr (dns_resolve env "google.com" "A")) ;;
  match err with
  | Some _ => ret false
  | None => ret true
  end.

(** [!wallet.isWIF(wif) && !wallet.isPrivateKey(wif)], with the short
    circuit of [&&]. *)
Definition not_WIF_nor_privateKey (str : string) : M bool :=
  a <- call (EvIsWIF str) (inr (isWIF (wallet env) str)) ;;
  if negb a
  then b <- call (EvIsPrivateKey str)
                 (inr (isPrivateKey (wallet env) str)) ;;
       ret (negb b)
  else ret false.

Definition wifLoginActions (wif : string) : M AccountType :=
  invalid <- not_WIF_nor_privateKey wif ;;
  if invalid then throw (Error "Invalid private key entered")
  else
    account <- call (EvNewAccount wif) (new_Account (wallet env) wif) ;;
    hasInternetConnectivity <- checkForInternetConnectivity ;;
    account_WIF <- lift (Account_WIF (wallet env) account) ;;
    account_address <- lift (Account_address (wallet env) account) ;;
    ret (Some {| wif := Some account_WIF;
                 address := account_address;
                 publicKey := None;
                 signingFunction := None;
                 isHardwareLogin := false;
                 isWatchOnly := None;
                 hasInternetConnectivity := hasInternetConnectivity |}).

Definition watchOnlyLoginActions (address : string) : M AccountType :=
  valid <- call (EvIsAddress address)
                (inr (isAddress (wallet env) address)) ;;
  if negb valid then throw (Error "Invalid public key entered")
  else
    hasInternetConnectivity <- checkForInternetConnectivity ;;
    ret (Some {| address := address;
                 wif := None;
                 publicKey := None;
                 signingFunction := None;
                 isHardwareLogin := false;
                 isWatchOnly := Some true;
                 hasInternetConnectivity := hasInternetConnectivity |}).

Definition nep2LoginActions (passphrase encryptedWIF : string)
  : M AccountType :=
  longEnough <- call (EvValidatePassphraseLength passphrase)
                     (inr (validatePassphraseLength env passphrase)) ;;
  if negb longEnough then throw (Error "Passphrase too short")
  else
    wellFormed <- call (EvIsNEP2 encryptedWIF)
                       (inr (isNEP2 (wallet env) encryptedWIF)) ;;
    if negb wellFormed then throw (Error "Invalid encrypted key entered")
    else
      wif <- call (EvDecryptAsync encryptedWIF passphrase)
                  (decryptAsync (wallet env) encryptedWIF passphrase) ;;
      account <- call (EvNewAccount wif) (new_Account (wallet env) wif) ;;
      call (EvUpgradeNEP6AddAddresses encryptedWIF wif)
           (upgradeNEP6AddAddresses env encryptedWIF wif) ;;
      hasInternetConnectivity <- checkForInternetConnectivity ;;
      account_WIF <- lift (Account_WIF (wallet env) account) ;;
      account_address <- lift (Account_address (wallet env) account) ;;
      ret (Some {| wif := Some account_WIF;
                   address := account_address;
                   publicKey := None;
                   signingFunction := None;
                   isHardwareLogin := false;
                   isWatchOnly := None;
                   hasInternetConnectivity := hasInternetConnectivity |}).

Definition ledgerLoginActions (publicKey : string) (account : Z)
  : M AccountType :=
  publicKeyEncoded <- call (EvGetPublicKeyEncoded publicKey)
                           (getPublicKeyEncoded (wallet env) publicKey) ;;
  walletAccount <- call (EvNewAccount publicKeyEncoded)
                        (new_Account (wallet env) publicKeyEncoded) ;;
  hasInternetConnectivity <- checkForInternetConnectivity ;;
  walletAccount_address <-
    lift (Account_address (wallet env) walletAccount) ;;
  ret (Some {| publicKey := Some publicKey;
               address := walletAccount_address;
               signingFunction :=
                 Some (bindArgsFromN ledgerNanoSCreateSignatureAsync 3
                                     [account]);
               wif := None;
               isHardwareLogin := true;
               isWatchOnly := None;
               hasInternetConnectivity := hasInternetConnectivity |}).

End Actions.

(** [logoutActions]: [resetBalanceState()] of [app/actions/balancesActions]
    is called, then [null] is returned.  The reset takes no argument and its
    result is dropped. *)
Definition logoutActions : M AccountType :=
  call EvResetBalanceState (inr tt) ;;
  ret None.

(** ** The session store *)

(** Modelled from the spec: the reducer that [createActions] of [spunky]
    installs is not part of the sources.  Per the spec a session is replaced
    as one value by the payload of an action that completes, and an action
    that fails is a no-op with respect to the session. *)
Definition dispatch (action : M AccountType) (session : AccountType)
  : Trace * AccountType :=
  match action with
  | (tr, inr payload) => (tr, payload)
  | (tr, inl _) => (tr, session)
  end.

(** The entry points as the view layer sees them. *)
Definition loginWithKey (env : Env) (wif : string) :=
  dispatch (wifLoginActions env wif).

Definition loginWatchOnly (env : Env) (address : string) :=
  dispatch (watchOnlyLoginActions env address).

Definition loginWithEncryptedKey (env : Env)
  (passphrase encryptedWIF : string) :=
  dispatch (nep2LoginActions env passphrase encryptedWIF).

Definition loginWithHardwareDevice (env : Env) (publicKey : string)
  (account : Z) :=
  dispatch (ledgerLoginActions env publicKey account).

Definition logout := dispatch logoutActions.

(** ** Error kinds *)

Inductive ErrorKind : Type :=
| InvalidCredential
| PassphraseTooShort.

(** Modelled from the spec: the source throws untyped [Error] objects; the
    spec names their kinds and pairs them with the messages "Invalid private
    key entered", "Invalid public key entered" (the watch-only address),
    "Invalid encrypted key entered" and "Passphrase too short". *)
Definition errorKind (e : exn) : option ErrorKind :=
  match e with
  | Error message =>
      if String.eqb message "Passphrase too short" then Some PassphraseTooShort
      else if String.eqb message "Invalid private key entered"
           || String.eqb message "Invalid public key entered"
           || String.eqb message "Invalid encrypted key entered"
      then Some InvalidCredential
      else None
  end.

(** A login that failed with an error of the given kind. *)
Definition fails_with {A} (kind : ErrorKind) (r : Result A) : Prop :=
  exists e, r = inl e /\ errorKind e = Some kind.

(** ** A test double of the collaborators

    A small stand-in for neon-js and the other imports, in the manner of the
    mocks a unit test of the actions would install, so that the model runs on
    concrete inputs.  Keys are shortened: a private key is eight hexadecimal
    digits, its WIF is ["L"] followed by the key, an encrypted key is ["6P"]
    followed by the key, and an address is ["A"] followed by the key. *)
Module Double.

Local Open Scope nat_scope.

Inductive account : Type :=
| FromPrivateKey (privateKey : string)
| FromPublicKey (publicKeyEncoded : string).

Definition hex_digit (c : Ascii.ascii) : bool :=
  let n := Ascii.nat_of_ascii c in
  ((48 <=? n) && (n <=? 57)) || ((97 <=? n) && (n <=? 102)).

Definition all_hex (s : string) : bool :=
  forallb hex_digit (list_ascii_of_string s).

Definition isPrivateKey (s : string) : bool :=
  (String.length s =? 8) && all_hex s.

Definition isWIF (s : string) : bool :=
  (String.length s =? 9) && String.prefix "L" s
  && all_hex (substring 1 8 s).

Definition isAddress (s : string) : bool :=
  (String.length s =? 9) && String.prefix "A" s.

Definition isNEP2 (s : string) : bool :=
  (String.length s =? 10) && String.prefix "6P" s.

Definition isPublicKeyEncoded (s : string) : bool :=
  (String.length s =? 10)
  && (String.prefix "02" s || String.prefix "03" s).

Definition decryptAsync (encryptedWIF passphrase : string) : Result string :=
  if String.eqb passphrase "hunter2!"
  then inr ("L" ++ substring 2 8 encryptedWIF)%string
  else inl (Error "Wrong password").

Definition new_Account (str : string) : Result account :=
  if isPrivateKey str then inr (FromPrivateKey str)
  else if isPublicKeyEncoded str then inr (FromPublicKey str)
  else if isWIF str then inr (FromPrivateKey (substring 1 8 str))
  else inl (Error "Invalid input").

Definition Account_WIF (a : account) : Result string :=
  match a with
  | FromPrivateKey k => inr ("L" ++ k)%string
  | FromPublicKey _ => inl (Error "No private key")
  end.

Definition Account_address (a : account) : Result string :=
  match a with
  | FromPrivateKey k => inr ("A" ++ k)%string
  | FromPublicKey p => inr ("A" ++ substring 2 8 p)%string
  end.

Definition getPublicKeyEncoded (publicKey : string) : Result string :=
  if (String.length publicKey =? 18) && String.prefix "04" publicKey
  then inr ("02" ++ substring 2 8 publicKey)%string
  else inl (Error "Invalid public key").

Definition wallet : Wallet :=
  Build_Wallet account isWIF isPrivateKey isAddress isNEP2 decryptAsync
               new_Account Account_WIF Account_address getPublicKeyEncoded.

(** Online, and the address book accepts every upgrade. *)
Definition env : Env :=
  Build_Env wallet
            (fun passphrase => 4 <=? String.length passphrase)
            (fun _ _ => inr tt)
            (fun _ _ => None).

(** The same, with the DNS resolution failing. *)
Definition offline : Env := with_dns env (Some (Error "ENOTFOUND")).

(** The same as [env], with the address book rejecting the upgrade. *)
Definition env_upgrade_rejects : Env :=
  Build_Env wallet
            (fun passphrase => 4 <=? String.length passphrase)
            (fun _ _ => inl (Error "EACCES"))
            (fun _ _ => None).

End Double.

(** ** Steps of a login *)

(** The steps the spec orders within one login call. *)
Inductive Step : Type :=
| Validate
| DeriveOrDecrypt
| Upgrade
| Probe
| Reset.

Definition step_of (ev : Event) : Step :=
  match ev with
  | EvIsWIF _ | EvIsPrivateKey _ | EvIsAddress _ | EvIsNEP2 _
  | EvValidatePassphraseLength _ => Validate
  | EvDecryptAsync _ _ | EvNewAccount _ | EvGetPublicKeyEncoded _ =>
      DeriveOrDecrypt
  | EvUpgradeNEP6AddAddresses _ _ => Upgrade
  | EvDnsResolve _ _ => Probe
  | EvResetBalanceState => Reset
  end.

Definition rank (s : Step) : nat :=
  match s with
  | Validate => 0
  | DeriveOrDecrypt => 1
  | Upgrade => 2
  | Probe => 3
  | Reset => 4
  end.

(** No call of a trace belongs to an earlier step than the call before it. *)
Fixpoint in_order (tr : Trace) : bool :=
  match tr with
  | [] => true
  | ev :: rest =>
      match rest with
      | [] => true
      | next :: _ =>
          (rank (step_of ev) <=? rank (step_of next))%nat && in_order rest
      end
  end.

(** What the ordering guarantee says of one login call: the calls come in
    the order of the steps; the probe is called at most once, and only when
    the steps before it succeeded; a login that completes made the probe its
    last call. *)
Definition follows_login_order (earlier_steps_succeeded : Prop)
  (m : M AccountType) : Prop :=
  in_order (trace_of m) = true
  /\ (calls is_probe (trace_of m) <= 1)%nat
  /\ (calls is_probe (trace_of m) = 1%nat -> earlier_steps_succeeded)
  /\ (forall session, result_of m = inr session ->
        exists before,
          trace_of m = before ++ [EvDnsResolve "google.com" "A"]
          /\ calls is_probe before = 0%nat).

(** The session a login yields when the probe answers [b] instead. *)
Definition with_connectivity (b : bool) (session : AccountType)
  : AccountType :=
  match session with
  | None => None
  | Some s =>
      Some {| address := address s;
              wif := wif s;
              publicKey := publicKey s;
              signingFunction := signingFunction s;
              isHardwareLogin := isHardwareLogin s;
              isWatchOnly := isWatchOnly s;
              hasInternetConnectivity := b |}
  end.

Definition map_result {A B} (f : A -> B) (r : Result A) : Result B :=
  match r with
  | inl e => inl e
  | inr a => inr (f a)
  end.

(** The run of a login that made the same calls and ended the same way,
    except that a session it built says [hasInternetConnectivity: false]. *)
Definition degraded (m : M AccountType) : M AccountType :=
  (trace_of m, map_result (with_connectivity false) (result_of m)).

(** ** Kinds of call and of session *)

Definition is_validation (ev : Event) : bool :=
  match step_of ev with Validate => true | _ => false end.

Definition is_isPrivateKey (ev : Event) : bool :=
  match ev with EvIsPrivateKey _ => true | _ => false end.

Definition is_encode (ev : Event) : bool :=
  match ev with EvGetPublicKeyEncoded _ => true | _ => false end.

(** The three object literals the login actions return: with the key
    ([wif]), watch-only, and hardware ([publicKey] and [signingFunction]). *)
Inductive SessionVariant : Type :=
| KeySession
| WatchOnlySession
| HardwareSession.

(** Which of the three literals an object is, by the fields it has; [None]
    for any other mix of fields. *)
Definition variant_of (s : AccountObject) : option SessionVariant :=
  match wif s, publicKey s, signingFunction s,
        isHardwareLogin s, isWatchOnly s with
  | Some _, None, None, false, None => Some KeySession
  | None, None, None, false, Some true => Some WatchOnlySession
  | None, Some _, Some _, true, None => Some HardwareSession
  | _, _, _, _, _ => None
  end.

(** * The view components of [app/containers/App/Sidebar/Sidebar.jsx]

    The two function components of the file, [Sidebar] and
    [SendRecipientList], as functions from their props to the element tree
    that their JSX denotes. *)

Module Jsx.

(** The values that stand in attributes and in [{...}] children.  An
    imported binding (an icon, an image, a callback) is known by its name, a
    member of an imported object ([styles.group], [ROUTES.SEND]) by the two
    names, and a call of [classNames] by its arguments. *)
#[warnings="-register-all"]
Inductive JsValue : Type :=
| JsUndefined
| JsNull
| JsBool (b : bool)
| JsNumber (n : Z)
| JsString (s : string)
| JsImport (name : string)
| JsMember (object property : string)
| JsClassNames (args : list JsValue).

(** An object as the list of the assignments that built it, oldest first:
    a later assignment to a name hides an earlier one. *)
Definition JsObject : Type := list (string * JsValue).

Fixpoint lookup (name : string) (o : JsObject) : option JsValue :=
  match o with
  | [] => None
  | (name', v) :: rest =>
      match lookup name rest with
      | Some v' => Some v'
      | None => if String.eqb name' name then Some v else None
      end
  end.

(** [o.name]: [undefined] when the object has no such property. *)
Definition get (name : string) (o : JsObject) : JsValue :=
  match lookup name o with
  | Some v => v
  | None => JsUndefined
  end.

Inductive ElementType : Type :=
| Tag (name : string)
| Component (name : string).

(** A JSX element with its attributes and children, a piece of JSX text, the
    value of a [{...}] child, or the array that a [{...}] child evaluates
    to. *)
#[warnings="-register-all"]
Inductive Node : Type :=
| Element (type : ElementType) (props : JsObject) (children : list Node)
| Text (text : string)
| Value (v : JsValue)
| Items (nodes : list Node).

(** React renders nothing for a boolean, [null] or [undefined] child. *)
Definition renders_nothing (v : JsValue) : bool :=
  match v with
  | JsUndefined | JsNull | JsBool _ => true
  | _ => false
  end.

(** The nodes of a tree that React renders, parents before children, in
    document order. *)
Fixpoint rendered (n : Node) : list Node :=
  match n with
  | Element _ _ children => n :: flat_map rendered children
  | Text _ => [n]
  | Value v => if renders_nothing v then [] else [n]
  | Items nodes => flat_map rendered nodes
  end.

Definition attr (name : string) (n : Node) : option JsValue :=
  match n with
  | Element _ props _ => lookup name props
  | _ => None
  end.

Definition is_component (name : string) (n : Node) : bool :=
  match n with
  | Element (Component name') _ _ => String.eqb name' name
  | _ => false
  end.

Definition is_tag (name : string) (n : Node) : bool :=
  match n with
  | Element (Tag name') _ _ => String.eqb name' name
  | _ => false
  end.

Definition has_id (id : string) (n : Node) : bool :=
  match attr "id" n with
  | Some (JsString s) => String.eqb s id
  | _ => false
  end.

(** The [id]s of the rendered [NavLink]s, in document order. *)
Definition nav_ids (n : Node) : list string :=
  flat_map (fun x =>
              if is_component "NavLink" x
              then match attr "id" x with
                   | Some (JsString s) => [s]
                   | _ => []
                   end
              else [])
           (rendered n).

(** The values that the tree shows as text through [{...}] children. *)
Definition shown_values (n : Node) : list JsValue :=
  flat_map (fun x => match x with Value v => [v] | _ => [] end) (rendered n).

(** The pieces of JSX text in the tree. *)
Definition texts (n : Node) : list string :=
  flat_map (fun x => match x with Text t => [t] | _ => [] end) (rendered n).

(** The [src] of the rendered images. *)
Definition image_sources (n : Node) : list JsValue :=
  flat_map (fun x =>
              if is_tag "img" x
              then match attr "src" x with Some v => [v] | None => [] end
              else [])
           (rendered n).

End Jsx.

Module Sidebar.

Import Jsx.

Record Props : Type := {
  className : string;
  theme : string;
  pendingTransactionsCount : Z;
  isWatchOnly : option bool;
}.

Definition styles (name : string) : JsValue := JsMember "styles" name.
Definition ROUTES (name : string) : JsValue := JsMember "ROUTES" name.

(** A [<NavLink id=... exact to=... className={styles.navItem}
    activeClassName={styles.active}>] with the icon and the label. *)
Definition NavLink (id : string) (exact : bool) (to : JsValue)
  (children : list Node) : Node :=
  Element (Component "NavLink")
    ([("id", JsString id)]
     ++ (if exact then [("exact", JsBool true)] else [])
     ++ [("to", to);
         ("className", styles "navItem");
         ("activeClassName", styles "active")])
    children.

Definition icon (name : string) : Node := Element (Component name) [] [].

Definition label (text : string) : Node := Element (Tag "div") [] [Text text].

Definition Sidebar (props : Props) : Node :=
  let themeBasedLogo :=
    if String.eqb (theme props) "Light"
    then JsImport "LightLogoWithoutText"
    else JsImport "DarkLogoWithoutText" in
  Element (Tag "div")
    [("className",
      JsClassNames [styles "container"; JsString (className props)])]
    [ Element (Tag "div") [("className", styles "group")]
        [ Element (Tag "div") [("className", styles "logo")]
            [ Element (Tag "img")
                [("src", themeBasedLogo); ("alt", JsString "neon-logo")] [] ];
          NavLink "dashboard" true (ROUTES "DASHBOARD")
            [ icon "HomeIcon"; label " Wallet " ];
          NavLink "history" true (ROUTES "TRANSACTION_HISTORY")
            [ (if (0 <? pendingTransactionsCount props)%Z
               then Element (Tag "div")
                      [("className", styles "pendingTransactionsCount")]
                      [ Value (JsNumber (pendingTransactionsCount props)) ]
               else Value (JsBool false));
              icon "HistoryIcon"; label " Activity " ];
          NavLink "send" true (ROUTES "SEND")
            [ icon "SendIcon"; label " Send " ];
          NavLink "receive" true (ROUTES "RECEIVE")
            [ icon "ReceiveIcon"; label " Receive " ];
          NavLink "contacts" false (ROUTES "CONTACTS")
            [ icon "ContactsIcon"; label " Contacts " ];
          match isWatchOnly props with
          | Some true => Value (JsBool false)
          | _ =>
              NavLink "tokensale" false (ROUTES "TOKEN_SALE")
                [ icon "TokenSaleIcon"; label " Token Sale " ]
          end;
          NavLink "News" false (ROUTES "NEWS")
            [ icon "NewsIcon"; label " News " ];
          NavLink "settings" false (ROUTES "SETTINGS")
            [ icon "SettingsIcon"; label " Settings " ] ];
      Element (Component "Logout")
        [("className",
          JsClassNames [styles "group"; styles "logoutToolTipGroup";
                        styles "navItem"]);
         ("id", JsString "logout")]
        [] ].

End Sidebar.

Module SendRecipientList.

Import Jsx.

Record Props : Type := {
  sendRowDetails : list JsObject;
  sendableAssets : JsValue;
  contacts : JsValue;
  showConfirmSend : bool;
  clearErrors : JsValue;
  removeRow : JsValue;
  updateRowField : JsValue;
}.

Definition styles (name : string) : JsValue := JsMember "styles" name.

(** [array.map((row, index) => ...)] *)
Fixpoint map_with_index {A B} (f : A -> nat -> B) (from : nat) (l : list A)
  : list B :=
  match l with
  | [] => []
  | x :: rest => f x from :: map_with_index f (S from) rest
  end.

(** The element of one row: the attributes are assigned in the order of the
    JSX, [key], then the spread of the row, then the seven named ones. *)
Definition SendRecipientListItem (props : Props) (row : JsObject)
  (index : nat) : Node :=
  Element (Component "SendRecipientListItem")
    ([("key", get "id" row)]
     ++ row
     ++ [("index", JsNumber (Z.of_nat index));
         ("showConfirmSend", JsBool (showConfirmSend props));
         ("removeRow", removeRow props);
         ("updateRowField", updateRowField props);
         ("sendableAssets", sendableAssets props);
         ("contacts", contacts props);
         ("clearErrors", clearErrors props)])
    [].

Definition renderRows (props : Props) : list Node :=
  map_with_index (SendRecipientListItem props) 0 (sendRowDetails props).

Definition header (column text : string) : Node :=
  Element (Tag "h3")
    [("className",
      JsClassNames [styles "sendRecipientListHeader"; styles column])]
    [Text text].

Definition SendRecipientList (props : Props) : Node :=
  Element (Tag "section")
    [("className", styles "sendRecipientListContainer")]
    [ Element (Tag "div") [("className", styles "sendRecipientListHeaders")]
        [ header "asset" "Asset";
          header "amount" "Amount";
          header "address" "Recipient Address";
          Element (Tag "div") [("className", styles "delete")] [] ];
      Element (Tag "ul") [("className", styles "sendRecipientList")]
        [ Items (renderRows props) ] ].

(** The names that the JSX assigns after the spread of the row. *)
Definition named_props : list string :=
  ["index"; "showConfirmSend"; "removeRow"; "updateRowField";
   "sendableAssets"; "contacts"; "clearErrors"].

End SendRecipientList.

(** No call of any of the given kinds is in the trace. *)
Definition untouched (kinds : list (Event -> bool)) (tr : Trace) : bool :=
  forallb (fun kind => (calls kind tr =? 0)%nat) kinds.

(** The actions finish once the outcome of every collaborator is known. *)
Ltac settle_outcomes :=
  repeat (cbn;
          match goal with
          | |- context [match ?x with inl _ => _ | inr _ => _ end] =>
              destruct x as [? | ?]
          | |- context [if ?b then _ else _] => destruct b
          | |- context [let '(_, _) := ?x in _] => destruct x
          end);
  cbn; try reflexivity.

(** The probe is the last call of a concrete trace. *)
Ltac last_is_probe :=
  match goal with
  | |- exists before, ?tr = _ /\ _ =>
      exists (removelast tr); split; reflexivity
  end.

(** One case of the ordering guarantee, every outcome being known. *)
Ltac order_case :=
  repeat match goal with |- _ /\ _ => split end;
  try reflexivity; try (cbn; lia); try discriminate;
  try (intros ? ?; last_is_probe);
  try (intros _; eauto 10).

(** * Properties *)

(** ** Runs on concrete inputs *)

Example wifLogin_raw_key :
  wifLoginActions Double.env "0badcafe"
  = ([EvIsWIF "0badcafe"; EvIsPrivateKey "0badcafe"; EvNewAccount "0badcafe";
      EvDnsResolve "google.com" "A"],
     inr (Some {| address := "A0badcafe"; wif := Some "L0badcafe";
                  publicKey := None; signingFunction := None;
                  isHardwareLogin := false; isWatchOnly := None;
                  hasInternetConnectivity := true |})).
Proof. reflexivity. Qed.

Example nep2Login_run :
  nep2LoginActions Double.offline "hunter2!" "6P0badcafe"
  = ([EvValidatePassphraseLength "hunter2!"; EvIsNEP2 "6P0badcafe";
      EvDecryptAsync "6P0badcafe" "hunter2!"; EvNewAccount "L0badcafe";
      EvUpgradeNEP6AddAddresses "6P0badcafe" "L0badcafe";
      EvDnsResolve "google.com" "A"],
     inr (Some {| address := "A0badcafe"; wif := Some "L0badcafe";
                  publicKey := None; signingFunction := None;
                  isHardwareLogin := false; isWatchOnly := None;
                  hasInternetConnectivity := false |})).
Proof. reflexivity. Qed.

Example nep2Login_wrong_passphrase :
  nep2LoginActions Double.env "letmein" "6P0badcafe"
  = ([EvValidatePassphraseLength "letmein"; EvIsNEP2 "6P0badcafe";
      EvDecryptAsync "6P0badcafe" "letmein"],
     inl (Error "Wrong password")).
Proof. reflexivity. Qed.

Example ledgerLogin_run :
  result_of (ledgerLoginActions Double.env "041234abcd55667788" 2)
  = inr (Some {| address := "A1234abcd"; wif := None;
                 publicKey := Some "041234abcd55667788";
                 signingFunction :=
                   Some (bindArgsFromN ledgerNanoSCreateSignatureAsync 3 [2%Z]);
                 isHardwareLogin := true; isWatchOnly := None;
                 hasInternetConnectivity := true |}).
Proof. reflexivity. Qed.

(** ** The monad laws *)

Lemma bind_ret_l {A B} (a : A) (k : A -> M B) : bind (ret a) k = k a.
Proof.
  unfold bind, ret. destruct (k a) as [tr r]. reflexivity.
Qed.

Lemma bind_ret_r {A} (m : M A) : bind m ret = m.
Proof.
  destruct m as [tr [e | a]]; cbn; [| rewrite app_nil_r]; reflexivity.
Qed.

Lemma bind_assoc {A B C} (m : M A) (k : A -> M B) (h : B -> M C) :
  bind (bind m k) h = bind m (fun a => bind (k a) h).
Proof.
  destruct m as [t1 [e | a]]; cbn; [reflexivity |].
  destruct (k a) as [t2 [e | b]]; cbn; [reflexivity |].
  destruct (h b) as [t3 r]. rewrite app_assoc. reflexivity.
Qed.

(** ** The store *)

Lemma dispatch_failure (action : M AccountType) (session : AccountType)
  (e : exn) :
  result_of action = inl e ->
  dispatch action session = (trace_of action, session).
Proof.
  destruct action as [tr r]. cbn. intros ->. reflexivity.
Qed.

Lemma dispatch_success (action : M AccountType)
  (session payload : AccountType) :
  result_of action = inr payload ->
  dispatch action session = (trace_of action, payload).
Proof.
  destruct action as [tr r]. cbn. intros ->. reflexivity.
Qed.

(** ** Encrypted-key login: the two validation gates *)

(** C1. A passphrase that fails the length check makes the encrypted-key
    login fail with "Passphrase too short" (kind [PassphraseTooShort])
    whatever the encrypted key is, after the length check alone: neither the
    format check nor the decryption is called.  A passphrase that passes with
    an encrypted key that is not NEP2 makes it fail with "Invalid encrypted
    key entered" (kind [InvalidCredential]) after the length check and the
    format check, in this order, and the decryption is not called. *)
Theorem nep2Login_validation_gates (env : Env)
  (passphrase encryptedWIF : string) :
  (validatePassphraseLength env passphrase = false ->
     nep2LoginActions env passphrase encryptedWIF
     = ([EvValidatePassphraseLength passphrase],
        inl (Error "Passphrase too short"))
     /\ fails_with PassphraseTooShort
          (result_of (nep2LoginActions env passphrase encryptedWIF))
     /\ calls is_decrypt
          (trace_of (nep2LoginActions env passphrase encryptedWIF)) = 0%nat)
  /\ (validatePassphraseLength env passphrase = true ->
   isNEP2 (wallet env) encryptedWIF = false ->
     nep2LoginActions env passphrase encryptedWIF
     = ([EvValidatePassphraseLength passphrase; EvIsNEP2 encryptedWIF],
        inl (Error "Invalid encrypted key entered"))
     /\ fails_with InvalidCredential
          (result_of (nep2LoginActions env passphrase encryptedWIF))
     /\ calls is_decrypt
          (trace_of (nep2LoginActions env passphrase encryptedWIF)) = 0%nat).
Proof.
  unfold nep2LoginActions. split.
  - intros Hshort. rewrite Hshort. cbn.
    repeat split. eexists; split; reflexivity.
  - intros Hlong Hbad. rewrite Hlong. cbn. rewrite Hbad. cbn.
    repeat split. eexists; split; reflexivity.
Qed.

Lemma nep2Login_validation_gates_witness :
  (nep2LoginActions Double.env "abc" "not a key"
   = ([EvValidatePassphraseLength "abc"], inl (Error "Passphrase too short"))
   /\ fails_with PassphraseTooShort
        (result_of (nep2LoginActions Double.env "abc" "not a key"))
   /\ calls is_decrypt
        (trace_of (nep2LoginActions Double.env "abc" "not a key")) = 0%nat)
  /\ (nep2LoginActions Double.env "hunter2!" "not a key"
   = ([EvValidatePassphraseLength "hunter2!"; EvIsNEP2 "not a key"],
      inl (Error "Invalid encrypted key entered"))
   /\ fails_with InvalidCredential
        (result_of (nep2LoginActions Double.env "hunter2!" "not a key"))
   /\ calls is_decrypt
        (trace_of (nep2LoginActions Double.env "hunter2!" "not a key"))
      = 0%nat).
Proof.
  split.
  - apply (proj1 (nep2Login_validation_gates Double.env "abc" "not a key")).
    reflexivity.
  - apply (proj2 (nep2Login_validation_gates Double.env
                    "hunter2!" "not a key"));
      reflexivity.
Defined.

(** ** Encrypted-key login: decryption, derivation and the address book *)

(** C2. With a passphrase that passes the length check, a well-formed
    encrypted key, a decryption that succeeds and an account derived from the
    decrypted key, the address-book upgrade is called exactly once, with the
    original encrypted key and the decrypted key.  When it resolves, the
    session carries the address (and WIF) read from the derived account and
    the answer of the probe.  When it rejects, the login fails with the
    rejection although the account was derived, no probe is made, and the
    stored session stays as it was. *)
Theorem nep2Login_upgrade_awaited (env : Env)
  (passphrase encryptedWIF wif : string) (account : Account (wallet env)) :
  validatePassphraseLength env passphrase = true ->
  isNEP2 (wallet env) encryptedWIF = true ->
  decryptAsync (wallet env) encryptedWIF passphrase = inr wif ->
  new_Account (wallet env) wif = inr account ->
  filter is_upgrade (trace_of (nep2LoginActions env passphrase encryptedWIF))
  = [EvUpgradeNEP6AddAddresses encryptedWIF wif]
  /\ (forall account_WIF account_address online,
        upgradeNEP6AddAddresses env encryptedWIF wif = inr tt ->
        Account_WIF (wallet env) account = inr account_WIF ->
        Account_address (wallet env) account = inr account_address ->
        result_of (checkForInternetConnectivity env) = inr online ->
        result_of (nep2LoginActions env passphrase encryptedWIF)
        = inr (Some {| address := account_address;
                       wif := Some account_WIF;
                       publicKey := None;
                       signingFunction := None;
                       isHardwareLogin := false;
                       isWatchOnly := None;
                       hasInternetConnectivity := online |}))
  /\ (forall rejection,
        upgradeNEP6AddAddresses env encryptedWIF wif = inl rejection ->
        result_of (nep2LoginActions env passphrase encryptedWIF)
        = inl rejection
        /\ calls is_probe
             (trace_of (nep2LoginActions env passphrase encryptedWIF)) = 0%nat
        /\ forall session,
             snd (loginWithEncryptedKey env passphrase encryptedWIF session)
             = session).
Proof.
  intros Hlong Hnep2 Hdecrypt Hnew.
  unfold loginWithEncryptedKey, nep2LoginActions, checkForInternetConnectivity.
  rewrite Hlong. cbn. rewrite Hnep2. cbn. rewrite Hdecrypt. cbn.
  rewrite Hnew. cbn.
  split; [| split].
  - destruct (upgradeNEP6AddAddresses env encryptedWIF wif) as [e | []]; cbn;
      [reflexivity |].
    destruct (dns_resolve env "google.com" "A"); cbn;
      destruct (Account_WIF (wallet env) account); cbn; try reflexivity;
      destruct (Account_address (wallet env) account); reflexivity.
  - intros account_WIF account_address online Hup HWIF Haddr.
    rewrite Hup. cbn.
    destruct (dns_resolve env "google.com" "A"); cbn;
      rewrite HWIF; cbn; rewrite Haddr; cbn;
      intros Hprobe; injection Hprobe as <-; reflexivity.
  - intros rejection Hup. rewrite Hup. cbn. repeat split.
Qed.

Lemma nep2Login_upgrade_awaited_witness :
  result_of (nep2LoginActions Double.env "hunter2!" "6P0badcafe")
  = inr (Some {| address := "A0badcafe";
                 wif := Some "L0badcafe";
                 publicKey := None;
                 signingFunction := None;
                 isHardwareLogin := false;
                 isWatchOnly := None;
                 hasInternetConnectivity := true |})
  /\ result_of
       (nep2LoginActions Double.env_upgrade_rejects "hunter2!" "6P0badcafe")
     = inl (Error "EACCES").
Proof.
  split.
  - apply (proj1 (proj2
      (nep2Login_upgrade_awaited Double.env "hunter2!" "6P0badcafe"
         "L0badcafe" (Double.FromPrivateKey "0badcafe")
         eq_refl eq_refl eq_refl eq_refl))); reflexivity.
  - apply (proj2 (proj2
      (nep2Login_upgrade_awaited Double.env_upgrade_rejects
         "hunter2!" "6P0badcafe"
         "L0badcafe" (Double.FromPrivateKey "0badcafe")
         eq_refl eq_refl eq_refl eq_refl))). reflexivity.
Defined.

(** ** Raw-key login *)

(** C3. For a string that is a valid WIF or a valid raw private key, from
    which the account and its WIF and address are derived, the raw-key login
    yields the session with that WIF and address, [isHardwareLogin] false, no
    [isWatchOnly], no [publicKey], no [signingFunction], and the answer of
    the probe as [hasInternetConnectivity]. *)
Theorem wifLogin_session (env : Env) (wif : string)
  (account : Account (wallet env)) (account_WIF account_address : string)
  (online : bool) :
  isWIF (wallet env) wif = true \/ isPrivateKey (wallet env) wif = true ->
  new_Account (wallet env) wif = inr account ->
  Account_WIF (wallet env) account = inr account_WIF ->
  Account_address (wallet env) account = inr account_address ->
  result_of (checkForInternetConnectivity env) = inr online ->
  result_of (wifLoginActions env wif)
  = inr (Some {| address := account_address;
                 wif := Some account_WIF;
                 publicKey := None;
                 signingFunction := None;
                 isHardwareLogin := false;
                 isWatchOnly := None;
                 hasInternetConnectivity := online |}).
Proof.
  intros Hvalid Hnew HWIF Haddr.
  unfold wifLoginActions, not_WIF_nor_privateKey, checkForInternetConnectivity.
  cbn.
  destruct (isWIF (wallet env) wif) eqn:HisWIF; cbn.
  - rewrite Hnew. cbn.
    destruct (dns_resolve env "google.com" "A"); cbn;
      rewrite HWIF; cbn; rewrite Haddr; cbn;
      intros Hprobe; injection Hprobe as <-; reflexivity.
  - destruct Hvalid as [H | H]; [discriminate H |]. rewrite H. cbn.
    rewrite Hnew. cbn.
    destruct (dns_resolve env "google.com" "A"); cbn;
      rewrite HWIF; cbn; rewrite Haddr; cbn;
      intros Hprobe; injection Hprobe as <-; reflexivity.
Qed.

Lemma wifLogin_session_witness :
  result_of (wifLoginActions Double.offline "L0badcafe")
  = inr (Some {| address := "A0badcafe";
                 wif := Some "L0badcafe";
                 publicKey := None;
                 signingFunction := None;
                 isHardwareLogin := false;
                 isWatchOnly := None;
                 hasInternetConnectivity := false |}).
Proof.
  apply (wifLogin_session Double.offline "L0badcafe"
           (Double.FromPrivateKey "0badcafe") "L0badcafe" "A0badcafe" false
           (or_introl eq_refl) eq_refl eq_refl eq_refl eq_refl).
Defined.

(** ** Hardware login *)

(** C4. A hardware login with public key [publicKey] and device account
    index [account] that completes yields a session with [isHardwareLogin]
    true, [publicKey] the input itself, the address of the account derived
    from the encoded public key, as [signingFunction] the ledger signature
    function with [account] bound from its third argument on, and no [wif]. *)
Theorem ledgerLogin_session (env : Env) (publicKey : string) (account : Z)
  (session : AccountType) :
  result_of (ledgerLoginActions env publicKey account) = inr session ->
  exists publicKeyEncoded walletAccount walletAccount_address online,
    getPublicKeyEncoded (wallet env) publicKey = inr publicKeyEncoded
    /\ new_Account (wallet env) publicKeyEncoded = inr walletAccount
    /\ Account_address (wallet env) walletAccount = inr walletAccount_address
    /\ result_of (checkForInternetConnectivity env) = inr online
    /\ session
       = Some {| address := walletAccount_address;
                 wif := None;
                 publicKey := Some publicKey;
                 signingFunction :=
                   Some (bindArgsFromN ledgerNanoSCreateSignatureAsync 3
                                       [account]);
                 isHardwareLogin := true;
                 isWatchOnly := None;
                 hasInternetConnectivity := online |}.
Proof.
  unfold ledgerLoginActions, checkForInternetConnectivity.
  destruct (getPublicKeyEncoded (wallet env) publicKey)
    as [e | publicKeyEncoded] eqn:Henc; cbn; [discriminate |].
  destruct (new_Account (wallet env) publicKeyEncoded)
    as [e | walletAccount] eqn:Hnew; cbn; [discriminate |].
  destruct (dns_resolve env "google.com" "A"); cbn;
    (destruct (Account_address (wallet env) walletAccount)
       as [e' | walletAccount_address] eqn:Haddr; cbn; [discriminate |]);
    intros Hres; injection Hres as <-;
    exists publicKeyEncoded, walletAccount, walletAccount_address;
    eexists; repeat split; eassumption.
Qed.

Lemma ledgerLogin_session_witness :
  exists publicKeyEncoded walletAccount walletAccount_address online,
    getPublicKeyEncoded Double.wallet "041234abcd55667788"
    = inr publicKeyEncoded
    /\ new_Account Double.wallet publicKeyEncoded = inr walletAccount
    /\ Account_address Double.wallet walletAccount
       = inr walletAccount_address
    /\ result_of (checkForInternetConnectivity Double.env) = inr online
    /\ Some {| address := "A1234abcd";
               wif := None;
               publicKey := Some "041234abcd55667788";
               signingFunction :=
                 Some (bindArgsFromN ledgerNanoSCreateSignatureAsync 3 [2%Z]);
               isHardwareLogin := true;
               isWatchOnly := None;
               hasInternetConnectivity := true |}
       = Some {| address := walletAccount_address;
                 wif := None;
                 publicKey := Some "041234abcd55667788";
                 signingFunction :=
                   Some (bindArgsFromN ledgerNanoSCreateSignatureAsync 3
                                       [2%Z]);
                 isHardwareLogin := true;
                 isWatchOnly := None;
                 hasInternetConnectivity := online |}.
Proof.
  apply (ledgerLogin_session Double.env "041234abcd55667788" 2).
  reflexivity.
Defined.

(** ** The connectivity probe *)

Lemma checkForInternetConnectivity_run (env : Env) :
  checkForInternetConnectivity env
  = ([EvDnsResolve "google.com" "A"],
     inr (match dns_resolve env "google.com" "A" with
          | Some _ => false
          | None => true
          end)).
Proof.
  unfold checkForInternetConnectivity. cbn.
  destruct (dns_resolve env "google.com" "A"); reflexivity.
Qed.

(** C5. The probe never rejects: whatever the DNS resolution does, it makes
    the one call to the resolver and resolves to a boolean, [true] exactly
    when the resolution succeeded and [false] exactly when it gave an error.
    A failed resolution aborts none of the four logins: each makes the calls
    and ends the way it does when the resolution succeeds, except that the
    session it builds has [hasInternetConnectivity] false. *)
Theorem probe_never_rejects (env : Env) :
  (exists online,
     checkForInternetConnectivity env
     = ([EvDnsResolve "google.com" "A"], inr online)
     /\ (online = true <-> dns_resolve env "google.com" "A" = None)
     /\ (online = false <->
         exists err, dns_resolve env "google.com" "A" = Some err))
  /\
  (forall err,
     dns_resolve env "google.com" "A" = Some err ->
     (forall wif,
        wifLoginActions env wif
        = degraded (wifLoginActions (with_dns env None) wif))
     /\ (forall address,
           watchOnlyLoginActions env address
           = degraded (watchOnlyLoginActions (with_dns env None) address))
     /\ (forall passphrase encryptedWIF,
           nep2LoginActions env passphrase encryptedWIF
           = degraded
               (nep2LoginActions (with_dns env None) passphrase encryptedWIF))
     /\ (forall publicKey account,
           ledgerLoginActions env publicKey account
           = degraded
               (ledgerLoginActions (with_dns env None) publicKey account))).
Proof.
  split.
  - rewrite checkForInternetConnectivity_run.
    destruct (dns_resolve env "google.com" "A") as [err |].
    + exists false. repeat split; try discriminate; eauto.
    + exists true. repeat split; try discriminate.
      intros [err Herr]. discriminate Herr.
  - intros err Herr. repeat split; intros.
    + unfold degraded, wifLoginActions, not_WIF_nor_privateKey.
      rewrite !checkForInternetConnectivity_run. cbn. rewrite Herr.
      settle_outcomes.
    + unfold degraded, watchOnlyLoginActions.
      rewrite !checkForInternetConnectivity_run. cbn. rewrite Herr.
      settle_outcomes.
    + unfold degraded, nep2LoginActions.
      rewrite !checkForInternetConnectivity_run. cbn. rewrite Herr.
      settle_outcomes.
    + unfold degraded, ledgerLoginActions.
      rewrite !checkForInternetConnectivity_run. cbn. rewrite Herr.
      settle_outcomes.
Qed.

Lemma probe_never_rejects_witness :
  wifLoginActions Double.offline "0badcafe"
  = ([EvIsWIF "0badcafe"; EvIsPrivateKey "0badcafe"; EvNewAccount "0badcafe";
      EvDnsResolve "google.com" "A"],
     inr (Some {| address := "A0badcafe";
                  wif := Some "L0badcafe";
                  publicKey := None;
                  signingFunction := None;
                  isHardwareLogin := false;
                  isWatchOnly := None;
                  hasInternetConnectivity := false |})).
Proof.
  exact (proj1 (proj2 (probe_never_rejects Double.offline)
                  (Error "ENOTFOUND") eq_refl) "0badcafe").
Defined.

(** ** Raw-key login: invalid input *)

(** C6. For a string that is neither a valid WIF nor a valid raw private
    key, the raw-key login fails with "Invalid private key entered" (kind
    [InvalidCredential]) after the two validity checks: no account is
    derived, no probe is made, and the stored session, whatever it was, is
    left as it was. *)
Theorem wifLogin_invalid_key (env : Env) (wif : string)
  (session : AccountType) :
  isWIF (wallet env) wif = false ->
  isPrivateKey (wallet env) wif = false ->
  wifLoginActions env wif
  = ([EvIsWIF wif; EvIsPrivateKey wif],
     inl (Error "Invalid private key entered"))
  /\ fails_with InvalidCredential (result_of (wifLoginActions env wif))
  /\ calls is_derive (trace_of (wifLoginActions env wif)) = 0%nat
  /\ snd (loginWithKey env wif session) = session.
Proof.
  intros HnotWIF HnotKey.
  unfold loginWithKey, wifLoginActions, not_WIF_nor_privateKey.
  cbn. rewrite HnotWIF. cbn. rewrite HnotKey. cbn.
  repeat split. eexists; split; reflexivity.
Qed.

Lemma wifLogin_invalid_key_witness :
  wifLoginActions Double.env "not a key"
  = ([EvIsWIF "not a key"; EvIsPrivateKey "not a key"],
     inl (Error "Invalid private key entered"))
  /\ fails_with InvalidCredential
       (result_of (wifLoginActions Double.env "not a key"))
  /\ calls is_derive (trace_of (wifLoginActions Double.env "not a key"))
     = 0%nat
  /\ snd (loginWithKey Double.env "not a key"
            (Some {| address := "A0badcafe";
                     wif := Some "L0badcafe";
                     publicKey := None;
                     signingFunction := None;
                     isHardwareLogin := false;
                     isWatchOnly := None;
                     hasInternetConnectivity := true |}))
     = Some {| address := "A0badcafe";
               wif := Some "L0badcafe";
               publicKey := None;
               signingFunction := None;
               isHardwareLogin := false;
               isWatchOnly := None;
               hasInternetConnectivity := true |}.
Proof.
  apply (wifLogin_invalid_key Double.env "not a key"); reflexivity.
Defined.

(** ** Watch-only login *)

(** C7. For a valid address the watch-only login yields the session whose
    address is the string supplied, with [isWatchOnly] true,
    [isHardwareLogin] false, no [wif], [publicKey] or [signingFunction], and
    the answer of the probe as [hasInternetConnectivity]; it derives no
    account and decrypts nothing.  For an invalid address it fails with
    "Invalid public key entered" (kind [InvalidCredential]). *)
Theorem watchOnlyLogin_session (env : Env) (address : string) :
  (isAddress (wallet env) address = true ->
     exists online,
       result_of (checkForInternetConnectivity env) = inr online
       /\ result_of (watchOnlyLoginActions env address)
          = inr (Some {| address := address;
                         wif := None;
                         publicKey := None;
                         signingFunction := None;
                         isHardwareLogin := false;
                         isWatchOnly := Some true;
                         hasInternetConnectivity := online |})
       /\ calls is_derive (trace_of (watchOnlyLoginActions env address))
          = 0%nat
       /\ calls is_decrypt (trace_of (watchOnlyLoginActions env address))
          = 0%nat)
  /\ (isAddress (wallet env) address = false ->
        watchOnlyLoginActions env address
        = ([EvIsAddress address], inl (Error "Invalid public key entered"))
        /\ fails_with InvalidCredential
             (result_of (watchOnlyLoginActions env address))).
Proof.
  unfold watchOnlyLoginActions.
  rewrite checkForInternetConnectivity_run. split; intros H; rewrite H; cbn.
  - eexists. repeat split.
  - split; [reflexivity |]. eexists; split; reflexivity.
Qed.

Lemma watchOnlyLogin_session_witness :
  (exists online,
     result_of (checkForInternetConnectivity Double.env) = inr online
     /\ result_of (watchOnlyLoginActions Double.env "A0badcafe")
        = inr (Some {| address := "A0badcafe";
                       wif := None;
                       publicKey := None;
                       signingFunction := None;
                       isHardwareLogin := false;
                       isWatchOnly := Some true;
                       hasInternetConnectivity := online |})
     /\ calls is_derive
          (trace_of (watchOnlyLoginActions Double.env "A0badcafe")) = 0%nat
     /\ calls is_decrypt
          (trace_of (watchOnlyLoginActions Double.env "A0badcafe")) = 0%nat)
  /\ fails_with InvalidCredential
       (result_of (watchOnlyLoginActions Double.env "0badcafe")).
Proof.
  split.
  - apply (proj1 (watchOnlyLogin_session Double.env "A0badcafe")).
    reflexivity.
  - apply (proj2 (watchOnlyLogin_session Double.env "0badcafe")).
    reflexivity.
Defined.

(** ** Logout *)

(** C8. Whatever the stored session is, present or absent, a logout calls
    the balance reset exactly once, does not fail, and leaves the session
    absent; a second logout right after does the same. *)
Theorem logout_resets_and_clears (session : AccountType) :
  logoutActions = ([EvResetBalanceState], inr None)
  /\ logout session = ([EvResetBalanceState], None)
  /\ calls is_reset (fst (logout session)) = 1%nat
  /\ logout (snd (logout session)) = ([EvResetBalanceState], None).
Proof.
  repeat split.
Qed.

(** ** The order of the steps *)

Lemma wifLogin_order (env : Env) (wif : string) :
  follows_login_order
    ((isWIF (wallet env) wif = true \/ isPrivateKey (wallet env) wif = true)
     /\ exists account, new_Account (wallet env) wif = inr account)
    (wifLoginActions env wif)
  /\ calls is_upgrade (trace_of (wifLoginActions env wif)) = 0%nat.
Proof.
  unfold follows_login_order, calls, wifLoginActions, not_WIF_nor_privateKey.
  rewrite checkForInternetConnectivity_run. cbn.
  destruct (isWIF (wallet env) wif) eqn:HisWIF; cbn;
    [| destruct (isPrivateKey (wallet env) wif) eqn:HisKey; cbn].
  all: try (destruct (new_Account (wallet env) wif) as [e | account] eqn:Hnew;
            cbn;
            [| destruct (Account_WIF (wallet env) account); cbn;
               [| destruct (Account_address (wallet env) account); cbn]]).
  all: order_case.
Qed.

Lemma watchOnlyLogin_order (env : Env) (address : string) :
  follows_login_order (isAddress (wallet env) address = true)
    (watchOnlyLoginActions env address)
  /\ calls is_upgrade (trace_of (watchOnlyLoginActions env address)) = 0%nat.
Proof.
  unfold follows_login_order, calls, watchOnlyLoginActions.
  rewrite checkForInternetConnectivity_run. cbn.
  destruct (isAddress (wallet env) address) eqn:HisAddress; cbn.
  all: order_case.
Qed.

Lemma nep2Login_order (env : Env) (passphrase encryptedWIF : string) :
  follows_login_order
    (validatePassphraseLength env passphrase = true
     /\ isNEP2 (wallet env) encryptedWIF = true
     /\ exists wif account,
          decryptAsync (wallet env) encryptedWIF passphrase = inr wif
          /\ new_Account (wallet env) wif = inr account
          /\ upgradeNEP6AddAddresses env encryptedWIF wif = inr tt)
    (nep2LoginActions env passphrase encryptedWIF)
  /\ (calls is_upgrade
        (trace_of (nep2LoginActions env passphrase encryptedWIF)) <= 1)%nat.
Proof.
  unfold follows_login_order, calls, nep2LoginActions.
  rewrite checkForInternetConnectivity_run. cbn.
  destruct (validatePassphraseLength env passphrase) eqn:Hlong; cbn;
    [destruct (isNEP2 (wallet env) encryptedWIF) eqn:Hnep2; cbn;
     [destruct (decryptAsync (wallet env) encryptedWIF passphrase)
        as [e | wif] eqn:Hdecrypt; cbn;
      [| destruct (new_Account (wallet env) wif)
           as [e | account] eqn:Hnew; cbn;
         [| destruct (upgradeNEP6AddAddresses env encryptedWIF wif)
              as [e | []] eqn:Hupgrade; cbn;
            [| destruct (Account_WIF (wallet env) account); cbn;
               [| destruct (Account_address (wallet env) account); cbn]]]]
     |]
    |].
  all: order_case.
Qed.

Lemma ledgerLogin_order (env : Env) (publicKey : string) (account : Z) :
  follows_login_order
    (exists publicKeyEncoded walletAccount,
       getPublicKeyEncoded (wallet env) publicKey = inr publicKeyEncoded
       /\ new_Account (wallet env) publicKeyEncoded = inr walletAccount)
    (ledgerLoginActions env publicKey account)
  /\ calls is_upgrade (trace_of (ledgerLoginActions env publicKey account))
     = 0%nat.
Proof.
  unfold follows_login_order, calls, ledgerLoginActions.
  rewrite checkForInternetConnectivity_run. cbn.
  destruct (getPublicKeyEncoded (wallet env) publicKey)
    as [e | publicKeyEncoded] eqn:Hencoded; cbn;
    [| destruct (new_Account (wallet env) publicKeyEncoded)
         as [e | walletAccount] eqn:Hnew; cbn;
       [| destruct (Account_address (wallet env) walletAccount); cbn]].
  all: order_case.
Qed.

(** C9. In every login call of each of the four variants the calls come in
    the order validate, derive or decrypt, address-book upgrade, probe; the
    upgrade is called by the encrypted-key login only; the probe is called at
    most once, and only when every earlier step succeeded (the validity
    checks passed, the decryption, the encoding, the derivation and the
    upgrade returned); a login that completes called the probe exactly once,
    as its last call before the session was built. *)
Theorem login_steps_in_order (env : Env) :
  (forall wif,
     follows_login_order
       ((isWIF (wallet env) wif = true
         \/ isPrivateKey (wallet env) wif = true)
        /\ exists account, new_Account (wallet env) wif = inr account)
       (wifLoginActions env wif)
     /\ calls is_upgrade (trace_of (wifLoginActions env wif)) = 0%nat)
  /\ (forall address,
        follows_login_order (isAddress (wallet env) address = true)
          (watchOnlyLoginActions env address)
        /\ calls is_upgrade (trace_of (watchOnlyLoginActions env address))
           = 0%nat)
  /\ (forall passphrase encryptedWIF,
        follows_login_order
          (validatePassphraseLength env passphrase = true
           /\ isNEP2 (wallet env) encryptedWIF = true
           /\ exists wif account,
                decryptAsync (wallet env) encryptedWIF passphrase = inr wif
                /\ new_Account (wallet env) wif = inr account
                /\ upgradeNEP6AddAddresses env encryptedWIF wif = inr tt)
          (nep2LoginActions env passphrase encryptedWIF)
        /\ (calls is_upgrade
              (trace_of (nep2LoginActions env passphrase encryptedWIF))
            <= 1)%nat)
  /\ (forall publicKey account,
        follows_login_order
          (exists publicKeyEncoded walletAccount,
             getPublicKeyEncoded (wallet env) publicKey
             = inr publicKeyEncoded
             /\ new_Account (wallet env) publicKeyEncoded
                = inr walletAccount)
          (ledgerLoginActions env publicKey account)
        /\ calls is_upgrade
             (trace_of (ledgerLoginActions env publicKey account)) = 0%nat).
Proof.
  split; [| split; [| split]]; intros.
  - apply wifLogin_order.
  - apply watchOnlyLogin_order.
  - apply nep2Login_order.
  - apply ledgerLogin_order.
Qed.

(** ** Where the session's WIF comes from *)

(** C10. The [wif] of the session of a raw-key login or of an encrypted-key
    login that completes is what the [WIF] getter of the derived account
    returns: the account is built from the input string (raw-key login) or
    from the decrypted string (encrypted-key login), and the session holds
    the getter's answer, not that string.  In particular, for an input that
    is a valid raw private key and not a WIF, whose account yields a WIF
    encoding, the raw-key login yields a session whose [wif] is that
    encoding, which differs from the input string. *)
Theorem session_wif_is_account_WIF (env : Env) :
  (forall input session,
     result_of (wifLoginActions env input) = inr (Some session) ->
     exists account account_WIF,
       new_Account (wallet env) input = inr account
       /\ Account_WIF (wallet env) account = inr account_WIF
       /\ wif session = Some account_WIF)
  /\ (forall passphrase encryptedWIF session,
        result_of (nep2LoginActions env passphrase encryptedWIF)
        = inr (Some session) ->
        exists decrypted account account_WIF,
          decryptAsync (wallet env) encryptedWIF passphrase = inr decrypted
          /\ new_Account (wallet env) decrypted = inr account
          /\ Account_WIF (wallet env) account = inr account_WIF
          /\ wif session = Some account_WIF)
  /\ (forall privateKey account account_WIF account_address,
        isPrivateKey (wallet env) privateKey = true ->
        isWIF (wallet env) privateKey = false ->
        new_Account (wallet env) privateKey = inr account ->
        Account_WIF (wallet env) account = inr account_WIF ->
        Account_address (wallet env) account = inr account_address ->
        isWIF (wallet env) account_WIF = true ->
        exists session,
          result_of (wifLoginActions env privateKey) = inr (Some session)
          /\ wif session = Some account_WIF
          /\ account_WIF <> privateKey).
Proof.
  split; [| split].
  - intros input session.
    unfold wifLoginActions, not_WIF_nor_privateKey.
    rewrite checkForInternetConnectivity_run. cbn.
    destruct (isWIF (wallet env) input); cbn;
      [| destruct (isPrivateKey (wallet env) input); cbn;
         [| discriminate]].
    all: destruct (new_Account (wallet env) input)
           as [e | account] eqn:Hnew; cbn; [discriminate |].
    all: destruct (Account_WIF (wallet env) account)
           as [e | account_WIF] eqn:HWIF; cbn; [discriminate |].
    all: destruct (Account_address (wallet env) account); cbn;
           [discriminate |].
    all: intros Hres; injection Hres as <-;
           exists account, account_WIF; repeat split; assumption.
  - intros passphrase encryptedWIF session.
    unfold nep2LoginActions.
    rewrite checkForInternetConnectivity_run. cbn.
    destruct (validatePassphraseLength env passphrase); cbn;
      [| discriminate].
    destruct (isNEP2 (wallet env) encryptedWIF); cbn; [| discriminate].
    destruct (decryptAsync (wallet env) encryptedWIF passphrase)
      as [e | decrypted]; cbn; [discriminate |].
    destruct (new_Account (wallet env) decrypted)
      as [e | account] eqn:Hnew; cbn; [discriminate |].
    destruct (upgradeNEP6AddAddresses env encryptedWIF decrypted)
      as [e | []]; cbn; [discriminate |].
    destruct (Account_WIF (wallet env) account)
      as [e | account_WIF] eqn:HWIF; cbn; [discriminate |].
    destruct (Account_address (wallet env) account); cbn; [discriminate |].
    intros Hres; injection Hres as <-.
    exists decrypted, account, account_WIF. repeat split; assumption.
  - intros privateKey account account_WIF account_address
           HisKey HnotWIF Hnew HWIF Haddr Hencoding.
    unfold wifLoginActions, not_WIF_nor_privateKey.
    rewrite checkForInternetConnectivity_run. cbn.
    rewrite HnotWIF. cbn. rewrite HisKey. cbn. rewrite Hnew. cbn.
    rewrite HWIF. cbn. rewrite Haddr. cbn.
    eexists. split; [reflexivity |]. split; [reflexivity |].
    intros ->. rewrite HnotWIF in Hencoding. discriminate Hencoding.
Qed.

Lemma session_wif_is_account_WIF_witness :
  exists session,
    result_of (wifLoginActions Double.env "0badcafe") = inr (Some session)
    /\ wif session = Some "L0badcafe"
    /\ "L0badcafe" <> "0badcafe".
Proof.
  apply (proj2 (proj2 (session_wif_is_account_WIF Double.env))
           "0badcafe" (Double.FromPrivateKey "0badcafe")
           "L0badcafe" "A0badcafe");
    reflexivity.
Defined.

(** * Further properties of the actions *)

(** ** Encrypted-key login: every failure has a cause *)

(** X1. An encrypted-key login that fails does so for exactly one of these
    reasons, tried in this order: the passphrase is too short; the encrypted
    key is not NEP2; the decryption rejected; the account constructor threw
    on the decrypted key; the address-book upgrade rejected; a getter of the
    account threw.  In the last four cases the error is the collaborator's
    own. *)
Theorem nep2Login_failure_cause (env : Env)
  (passphrase encryptedWIF : string) (err : exn) :
  result_of (nep2LoginActions env passphrase encryptedWIF) = inl err ->
  (validatePassphraseLength env passphrase = false
   /\ err = Error "Passphrase too short")
  \/ (validatePassphraseLength env passphrase = true
      /\ isNEP2 (wallet env) encryptedWIF = false
      /\ err = Error "Invalid encrypted key entered")
  \/ (validatePassphraseLength env passphrase = true
      /\ isNEP2 (wallet env) encryptedWIF = true
      /\ (decryptAsync (wallet env) encryptedWIF passphrase = inl err
          \/ exists wif,
               decryptAsync (wallet env) encryptedWIF passphrase = inr wif
               /\ (new_Account (wallet env) wif = inl err
                   \/ exists account,
                        new_Account (wallet env) wif = inr account
                        /\ (upgradeNEP6AddAddresses env encryptedWIF wif
                            = inl err
                            \/ (upgradeNEP6AddAddresses env encryptedWIF wif
                                = inr tt
                                /\ (Account_WIF (wallet env) account
                                    = inl err
                                    \/ Account_address (wallet env) account
                                       = inl err)))))).
Proof.
  unfold nep2LoginActions. rewrite checkForInternetConnectivity_run. cbn.
  destruct (validatePassphraseLength env passphrase) eqn:Hlong; cbn;
    [| intros [= <-]; left; split; reflexivity].
  destruct (isNEP2 (wallet env) encryptedWIF) eqn:Hnep2; cbn;
    [| intros [= <-]; right; left; repeat split; reflexivity].
  intros Hres. right. right. split; [reflexivity |]. split; [reflexivity |].
  revert Hres.
  destruct (decryptAsync (wallet env) encryptedWIF passphrase)
    as [e | wif] eqn:Hdecrypt; cbn; [intros [= <-]; left; reflexivity |].
  intros Hres. right. exists wif. split; [reflexivity |]. revert Hres.
  destruct (new_Account (wallet env) wif) as [e | account] eqn:Hnew; cbn;
    [intros [= <-]; left; reflexivity |].
  intros Hres. right. exists account. split; [reflexivity |]. revert Hres.
  destruct (upgradeNEP6AddAddresses env encryptedWIF wif)
    as [e | []] eqn:Hupgrade; cbn; [intros [= <-]; left; reflexivity |].
  intros Hres. right. split; [reflexivity |]. revert Hres.
  destruct (Account_WIF (wallet env) account) as [e | account_WIF]; cbn;
    [intros [= <-]; left; reflexivity |].
  destruct (Account_address (wallet env) account) as [e | account_address];
    cbn; [intros [= <-]; right; reflexivity | discriminate].
Qed.

Lemma nep2Login_failure_cause_witness :
  (Double.env.(validatePassphraseLength) "letmein" = false
   /\ Error "Wrong password" = Error "Passphrase too short")
  \/ (Double.env.(validatePassphraseLength) "letmein" = true
      /\ isNEP2 Double.wallet "6P0badcafe" = false
      /\ Error "Wrong password" = Error "Invalid encrypted key entered")
  \/ (Double.env.(validatePassphraseLength) "letmein" = true
      /\ isNEP2 Double.wallet "6P0badcafe" = true
      /\ (decryptAsync Double.wallet "6P0badcafe" "letmein"
          = inl (Error "Wrong password")
          \/ exists wif,
               decryptAsync Double.wallet "6P0badcafe" "letmein" = inr wif
               /\ (new_Account Double.wallet wif
                   = inl (Error "Wrong password")
                   \/ exists account,
                        new_Account Double.wallet wif = inr account
                        /\ (upgradeNEP6AddAddresses Double.env
                              "6P0badcafe" wif
                            = inl (Error "Wrong password")
                            \/ (upgradeNEP6AddAddresses Double.env
                                  "6P0badcafe" wif
                                = inr tt
                                /\ (Account_WIF Double.wallet account
                                    = inl (Error "Wrong password")
                                    \/ Account_address Double.wallet account
                                       = inl (Error "Wrong password"))))))).
Proof.
  apply (nep2Login_failure_cause Double.env "letmein" "6P0badcafe"
           (Error "Wrong password")).
  reflexivity.
Defined.

(** X2. The encrypted-key login calls the decryption exactly when both
    validation gates pass, and the address-book upgrade exactly when,
    moreover, the decryption returned a key and the account constructor
    accepted it: a decrypted key that gives no account leaves the address
    book alone. *)
Theorem nep2Login_decrypt_and_upgrade_calls (env : Env)
  (passphrase encryptedWIF : string) :
  (calls is_decrypt (trace_of (nep2LoginActions env passphrase encryptedWIF))
   = 1%nat
   <-> validatePassphraseLength env passphrase = true
       /\ isNEP2 (wallet env) encryptedWIF = true)
  /\ (calls is_upgrade
        (trace_of (nep2LoginActions env passphrase encryptedWIF)) = 1%nat
      <-> validatePassphraseLength env passphrase = true
          /\ isNEP2 (wallet env) encryptedWIF = true
          /\ exists wif account,
               decryptAsync (wallet env) encryptedWIF passphrase = inr wif
               /\ new_Account (wallet env) wif = inr account).
Proof.
  unfold calls, nep2LoginActions. rewrite checkForInternetConnectivity_run.
  cbn.
  destruct (validatePassphraseLength env passphrase) eqn:Hlong; cbn;
    [| split; split; [discriminate | intros [H _]; discriminate H
                     | discriminate | intros [H _]; discriminate H]].
  destruct (isNEP2 (wallet env) encryptedWIF) eqn:Hnep2; cbn;
    [| split; split; [discriminate | intros [_ H]; discriminate H
                     | discriminate | intros (_ & H & _); discriminate H]].
  destruct (decryptAsync (wallet env) encryptedWIF passphrase)
    as [e | wif] eqn:Hdecrypt; cbn.
  { split; split; auto; [discriminate |].
    intros (_ & _ & wif & account & H & _). discriminate H. }
  destruct (new_Account (wallet env) wif) as [e | account] eqn:Hnew; cbn.
  { split; split; auto; [discriminate |].
    intros (_ & _ & wif' & account & [= <-] & H).
    rewrite Hnew in H. discriminate H. }
  assert (Hex : exists wif' account',
             @inr exn string wif = inr wif'
             /\ new_Account (wallet env) wif' = inr account')
    by (exists wif, account; split; [reflexivity | assumption]).
  destruct (upgradeNEP6AddAddresses env encryptedWIF wif) as [e | []]; cbn;
    [split; split; auto |].
  destruct (Account_WIF (wallet env) account); cbn; [split; split; auto |].
  destruct (Account_address (wallet env) account); cbn; split; split; auto.
Qed.

(** ** Encrypted-key login and raw-key login agree *)

(** X3. When both gates pass, the decryption returns a key that is a valid
    WIF or private key, and the address book accepts the upgrade, the
    encrypted-key login ends exactly as the raw-key login on the decrypted
    key does: the same session, or the same error. *)
Theorem nep2Login_as_wifLogin (env : Env)
  (passphrase encryptedWIF wif : string) :
  validatePassphraseLength env passphrase = true ->
  isNEP2 (wallet env) encryptedWIF = true ->
  decryptAsync (wallet env) encryptedWIF passphrase = inr wif ->
  isWIF (wallet env) wif = true \/ isPrivateKey (wallet env) wif = true ->
  upgradeNEP6AddAddresses env encryptedWIF wif = inr tt ->
  result_of (nep2LoginActions env passphrase encryptedWIF)
  = result_of (wifLoginActions env wif).
Proof.
  intros Hlong Hnep2 Hdecrypt Hvalid Hupgrade.
  unfold nep2LoginActions, wifLoginActions, not_WIF_nor_privateKey.
  rewrite !checkForInternetConnectivity_run. cbn.
  rewrite Hlong. cbn. rewrite Hnep2. cbn. rewrite Hdecrypt. cbn.
  destruct (new_Account (wallet env) wif) as [e | account] eqn:Hnew.
  - cbn. destruct (isWIF (wallet env) wif); cbn; [reflexivity |].
    destruct Hvalid as [H | H]; [discriminate H |]. rewrite H. reflexivity.
  - cbn. rewrite Hupgrade. cbn.
    destruct (isWIF (wallet env) wif); cbn;
      [| destruct Hvalid as [H | H]; [discriminate H |]; rewrite H; cbn];
      destruct (Account_WIF (wallet env) account); cbn; try reflexivity;
      destruct (Account_address (wallet env) account); reflexivity.
Qed.

Lemma nep2Login_as_wifLogin_witness :
  result_of (nep2LoginActions Double.env "hunter2!" "6P0badcafe")
  = result_of (wifLoginActions Double.env "L0badcafe").
Proof.
  apply (nep2Login_as_wifLogin Double.env "hunter2!" "6P0badcafe"
           "L0badcafe" eq_refl eq_refl eq_refl (or_introl eq_refl) eq_refl).
Defined.

(** ** The shape of a session *)

(** X4. A login that completes never yields [null], and the object it
    yields is one of three literals: the raw-key and the encrypted-key login
    give a session with [wif] and neither [publicKey], [signingFunction] nor
    [isWatchOnly]; the watch-only login gives one with [isWatchOnly] true
    and none of [wif], [publicKey], [signingFunction]; the hardware login
    gives one with [publicKey] and [signingFunction], [isHardwareLogin] true
    and neither [wif] nor [isWatchOnly]. *)
Theorem login_session_variant (env : Env) :
  (forall wif session,
     result_of (wifLoginActions env wif) = inr session ->
     exists s, session = Some s /\ variant_of s = Some KeySession)
  /\ (forall address session,
        result_of (watchOnlyLoginActions env address) = inr session ->
        exists s, session = Some s /\ variant_of s = Some WatchOnlySession)
  /\ (forall passphrase encryptedWIF session,
        result_of (nep2LoginActions env passphrase encryptedWIF)
        = inr session ->
        exists s, session = Some s /\ variant_of s = Some KeySession)
  /\ (forall publicKey account session,
        result_of (ledgerLoginActions env publicKey account) = inr session ->
        exists s, session = Some s /\ variant_of s = Some HardwareSession).
Proof.
  split; [| split; [| split]].
  - intros key session. unfold wifLoginActions, not_WIF_nor_privateKey.
    rewrite checkForInternetConnectivity_run. cbn.
    destruct (isWIF (wallet env) key); cbn;
      [| destruct (isPrivateKey (wallet env) key); cbn; [| discriminate]].
    all: destruct (new_Account (wallet env) key) as [e | account]; cbn;
      [discriminate |].
    all: destruct (Account_WIF (wallet env) account); cbn; [discriminate |].
    all: destruct (Account_address (wallet env) account); cbn;
      [discriminate |].
    all: intros [= <-]; eexists; split; reflexivity.
  - intros addr session. unfold watchOnlyLoginActions.
    rewrite checkForInternetConnectivity_run. cbn.
    destruct (isAddress (wallet env) addr); cbn; [| discriminate].
    intros [= <-]; eexists; split; reflexivity.
  - intros passphrase encryptedWIF session. unfold nep2LoginActions.
    rewrite checkForInternetConnectivity_run. cbn.
    destruct (validatePassphraseLength env passphrase); cbn;
      [| discriminate].
    destruct (isNEP2 (wallet env) encryptedWIF); cbn; [| discriminate].
    destruct (decryptAsync (wallet env) encryptedWIF passphrase)
      as [e | key]; cbn; [discriminate |].
    destruct (new_Account (wallet env) key) as [e | account]; cbn;
      [discriminate |].
    destruct (upgradeNEP6AddAddresses env encryptedWIF key) as [e | []];
      cbn; [discriminate |].
    destruct (Account_WIF (wallet env) account); cbn; [discriminate |].
    destruct (Account_address (wallet env) account); cbn; [discriminate |].
    intros [= <-]; eexists; split; reflexivity.
  - intros pk account session. unfold ledgerLoginActions.
    rewrite checkForInternetConnectivity_run. cbn.
    destruct (getPublicKeyEncoded (wallet env) pk)
      as [e | publicKeyEncoded]; cbn; [discriminate |].
    destruct (new_Account (wallet env) publicKeyEncoded)
      as [e | walletAccount]; cbn; [discriminate |].
    destruct (Account_address (wallet env) walletAccount); cbn;
      [discriminate |].
    intros [= <-]; eexists; split; reflexivity.
Qed.

(** ** Raw-key login: when it completes, and what it asks *)

(** X5. The raw-key login completes exactly when the input is a valid WIF or
    a valid private key and the account, its WIF and its address can all be
    derived from it. *)
Theorem wifLogin_completes_iff (env : Env) (wif : string) :
  (exists session, result_of (wifLoginActions env wif) = inr session)
  <-> (isWIF (wallet env) wif = true \/ isPrivateKey (wallet env) wif = true)
      /\ exists account account_WIF account_address,
           new_Account (wallet env) wif = inr account
           /\ Account_WIF (wallet env) account = inr account_WIF
           /\ Account_address (wallet env) account = inr account_address.
Proof.
  unfold wifLoginActions, not_WIF_nor_privateKey.
  rewrite checkForInternetConnectivity_run. cbn.
  assert (Hvalid :
            isWIF (wallet env) wif = false ->
            isPrivateKey (wallet env) wif = false ->
            ~ (isWIF (wallet env) wif = true
               \/ isPrivateKey (wallet env) wif = true))
    by (intros H1 H2 [H | H]; congruence).
  destruct (isWIF (wallet env) wif) eqn:HisWIF; cbn;
    [| destruct (isPrivateKey (wallet env) wif) eqn:HisKey; cbn].
  3: { split; [intros [session H]; discriminate H |].
       intros [H _]. exfalso. apply Hvalid; auto. }
  all: destruct (new_Account (wallet env) wif) as [e | account]; cbn;
    [split; [intros [session H]; discriminate H
            | intros [_ (a & w & d & H & _)]; discriminate H] |].
  all: destruct (Account_WIF (wallet env) account)
         as [e | account_WIF] eqn:HWIF; cbn;
    [split; [intros [session H]; discriminate H
            | intros [_ (a & w & d & [= <-] & H & _)];
              rewrite HWIF in H; discriminate H] |].
  all: destruct (Account_address (wallet env) account)
         as [e | account_address] eqn:Haddr; cbn;
    [split; [intros [session H]; discriminate H
            | intros [_ (a & w & d & [= <-] & _ & H)];
              rewrite Haddr in H; discriminate H] |].
  all: split; [intros _; split; [auto |];
               exists account, account_WIF, account_address; auto
              | intros _; eexists; reflexivity].
Qed.

(** X6. The raw-key login asks [isPrivateKey] exactly when [isWIF] answered
    no: a valid WIF is accepted on the first check alone. *)
Theorem wifLogin_short_circuit (env : Env) (wif : string) :
  calls is_isPrivateKey (trace_of (wifLoginActions env wif))
  = (if isWIF (wallet env) wif then 0 else 1)%nat.
Proof.
  unfold calls, wifLoginActions, not_WIF_nor_privateKey.
  rewrite checkForInternetConnectivity_run. cbn.
  destruct (isWIF (wallet env) wif); cbn;
    [| destruct (isPrivateKey (wallet env) wif); cbn; [| reflexivity]].
  all: destruct (new_Account (wallet env) wif) as [e | account]; cbn;
    [reflexivity |].
  all: destruct (Account_WIF (wallet env) account); cbn; [reflexivity |].
  all: destruct (Account_address (wallet env) account); reflexivity.
Qed.

(** ** Hardware login: no validation of its own *)

(** X7. The hardware login makes no validity check; the only account it
    builds is built from the encoded form of the public key, never from the
    key as given; and when it fails, the error is the one the encoder, the
    account constructor or the address getter threw. *)
Theorem ledgerLogin_relies_on_encoder (env : Env) (publicKey : string)
  (account : Z) :
  calls is_validation (trace_of (ledgerLoginActions env publicKey account))
  = 0%nat
  /\ (forall str,
        In (EvNewAccount str)
           (trace_of (ledgerLoginActions env publicKey account)) ->
        getPublicKeyEncoded (wallet env) publicKey = inr str)
  /\ (forall err,
        result_of (ledgerLoginActions env publicKey account) = inl err ->
        getPublicKeyEncoded (wallet env) publicKey = inl err
        \/ exists publicKeyEncoded,
             getPublicKeyEncoded (wallet env) publicKey
             = inr publicKeyEncoded
             /\ (new_Account (wallet env) publicKeyEncoded = inl err
                 \/ exists walletAccount,
                      new_Account (wallet env) publicKeyEncoded
                      = inr walletAccount
                      /\ Account_address (wallet env) walletAccount
                         = inl err)).
Proof.
  unfold calls, ledgerLoginActions. rewrite checkForInternetConnectivity_run.
  cbn.
  destruct (getPublicKeyEncoded (wallet env) publicKey)
    as [e | publicKeyEncoded]; cbn.
  { repeat split.
    - intros str [H | []]. discriminate H.
    - intros err [= <-]. left. reflexivity. }
  destruct (new_Account (wallet env) publicKeyEncoded)
    as [e | walletAccount] eqn:Hnew; cbn.
  { repeat split.
    - intros str [H | [[= <-] | []]]; [discriminate H | reflexivity].
    - intros err [= <-]. right. exists publicKeyEncoded. auto. }
  destruct (Account_address (wallet env) walletAccount)
    as [e | walletAccount_address] eqn:Haddr; cbn.
  - repeat split.
    + intros str [H | [[= <-] | [H | []]]];
        [discriminate H | reflexivity | discriminate H].
    + intros err [= <-]. right. exists publicKeyEncoded. split; [reflexivity |].
      right. exists walletAccount. auto.
  - repeat split.
    + intros str [H | [[= <-] | [H | []]]];
        [discriminate H | reflexivity | discriminate H].
    + intros err H. discriminate H.
Qed.

(** ** What a login never calls *)

(** X8. Whatever the collaborators answer: no login resets the balances;
    only the encrypted-key login decrypts or upgrades the address book; only
    the hardware login encodes a public key; the watch-only login builds no
    account; and a login makes at most four calls (raw key), two
    (watch-only), six (encrypted key) or three (hardware). *)
Theorem login_calls_bounded (env : Env) :
  (forall wif,
     untouched [is_decrypt; is_upgrade; is_encode; is_reset]
       (trace_of (wifLoginActions env wif)) = true
     /\ (length (trace_of (wifLoginActions env wif)) <= 4)%nat)
  /\ (forall address,
        untouched [is_decrypt; is_upgrade; is_encode; is_reset; is_derive]
          (trace_of (watchOnlyLoginActions env address)) = true
        /\ (length (trace_of (watchOnlyLoginActions env address)) <= 2)%nat)
  /\ (forall passphrase encryptedWIF,
        untouched [is_encode; is_reset]
          (trace_of (nep2LoginActions env passphrase encryptedWIF)) = true
        /\ (length (trace_of (nep2LoginActions env passphrase encryptedWIF))
            <= 6)%nat)
  /\ (forall publicKey account,
        untouched [is_decrypt; is_upgrade; is_reset]
          (trace_of (ledgerLoginActions env publicKey account)) = true
        /\ (length (trace_of (ledgerLoginActions env publicKey account))
            <= 3)%nat).
Proof.
  split; [| split; [| split]].
  - intros key.
    unfold untouched, calls, wifLoginActions, not_WIF_nor_privateKey.
    rewrite checkForInternetConnectivity_run. cbn.
    destruct (isWIF (wallet env) key); cbn;
      [| destruct (isPrivateKey (wallet env) key); cbn;
         [| split; [reflexivity | lia]]].
    all: destruct (new_Account (wallet env) key) as [e | account]; cbn;
      [split; [reflexivity | lia] |].
    all: destruct (Account_WIF (wallet env) account); cbn;
      [split; [reflexivity | lia] |].
    all: destruct (Account_address (wallet env) account); cbn;
      split; try reflexivity; lia.
  - intros addr. unfold untouched, calls, watchOnlyLoginActions.
    rewrite checkForInternetConnectivity_run. cbn.
    destruct (isAddress (wallet env) addr); cbn; split; try reflexivity; lia.
  - intros passphrase encryptedWIF.
    unfold untouched, calls, nep2LoginActions.
    rewrite checkForInternetConnectivity_run. cbn.
    destruct (validatePassphraseLength env passphrase); cbn;
      [| split; [reflexivity | lia]].
    destruct (isNEP2 (wallet env) encryptedWIF); cbn;
      [| split; [reflexivity | lia]].
    destruct (decryptAsync (wallet env) encryptedWIF passphrase)
      as [e | key]; cbn; [split; [reflexivity | lia] |].
    destruct (new_Account (wallet env) key) as [e | account]; cbn;
      [split; [reflexivity | lia] |].
    destruct (upgradeNEP6AddAddresses env encryptedWIF key) as [e | []];
      cbn; [split; [reflexivity | lia] |].
    destruct (Account_WIF (wallet env) account); cbn;
      [split; [reflexivity | lia] |].
    destruct (Account_address (wallet env) account); cbn;
      split; try reflexivity; lia.
  - intros pk account. unfold untouched, calls, ledgerLoginActions.
    rewrite checkForInternetConnectivity_run. cbn.
    destruct (getPublicKeyEncoded (wallet env) pk)
      as [e | publicKeyEncoded]; cbn; [split; [reflexivity | lia] |].
    destruct (new_Account (wallet env) publicKeyEncoded)
      as [e | walletAccount]; cbn; [split; [reflexivity | lia] |].
    destruct (Account_address (wallet env) walletAccount); cbn;
      split; try reflexivity; lia.
Qed.

(** ** Watch-only login: its only failure *)

(** X9. The watch-only login fails for one reason only: the address is not
    valid, and the error is then "Invalid public key entered".  No outcome
    of the DNS resolution and no other collaborator makes it fail. *)
Theorem watchOnlyLogin_only_failure (env : Env) (address : string)
  (err : exn) :
  result_of (watchOnlyLoginActions env address) = inl err ->
  isAddress (wallet env) address = false
  /\ err = Error "Invalid public key entered".
Proof.
  unfold watchOnlyLoginActions. rewrite checkForInternetConnectivity_run.
  cbn. destruct (isAddress (wallet env) address); cbn.
  - discriminate.
  - intros [= <-]. split; reflexivity.
Qed.

Lemma watchOnlyLogin_only_failure_witness :
  isAddress Double.wallet "0badcafe" = false
  /\ Error "Invalid public key entered" = Error "Invalid public key entered".
Proof.
  apply (watchOnlyLogin_only_failure Double.offline "0badcafe"
           (Error "Invalid public key entered")).
  reflexivity.
Defined.

(** * Properties of the view components *)

(** ** The sidebar *)

Example sidebar_watch_only :
  Jsx.nav_ids
    (Sidebar.Sidebar
       {| Sidebar.className := "app"; Sidebar.theme := "Dark";
          Sidebar.pendingTransactionsCount := 0;
          Sidebar.isWatchOnly := Some true |})
  = ["dashboard"; "history"; "send"; "receive"; "contacts"; "News";
     "settings"].
Proof. reflexivity. Qed.

(** X10. Whatever its props, the sidebar renders the links dashboard,
    history, send, receive, contacts, News and settings, in this order, and
    one logout control; the token-sale link stands between contacts and News
    exactly when [isWatchOnly] is not [true] (so also when it is absent).
    No two links share an id. *)
Theorem sidebar_nav_links (props : Sidebar.Props) :
  Jsx.nav_ids (Sidebar.Sidebar props)
  = ["dashboard"; "history"; "send"; "receive"; "contacts"]
    ++ match Sidebar.isWatchOnly props with
       | Some true => []
       | _ => ["tokensale"]
       end
    ++ ["News"; "settings"]
  /\ NoDup (Jsx.nav_ids (Sidebar.Sidebar props))
  /\ length (filter (Jsx.is_component "Logout")
               (Jsx.rendered (Sidebar.Sidebar props))) = 1%nat.
Proof.
  destruct props as [className theme count [[|] |]];
    unfold Jsx.nav_ids; cbn;
    destruct (0 <? count)%Z; cbn;
    (split; [reflexivity | split; [| reflexivity]]);
    repeat (constructor; [cbn; intuition discriminate |]); constructor.
Qed.

(** X11. The only value the sidebar shows through a [{...}] child is the
    number of pending transactions, inside the history link, and it shows it
    exactly when that number is positive: for zero or a negative number
    nothing is shown, not even the number itself. *)
Theorem sidebar_pending_badge (props : Sidebar.Props) :
  Jsx.shown_values (Sidebar.Sidebar props)
  = (if (0 <? Sidebar.pendingTransactionsCount props)%Z
     then [Jsx.JsNumber (Sidebar.pendingTransactionsCount props)]
     else [])
  /\ exists history,
       find (Jsx.has_id "history") (Jsx.rendered (Sidebar.Sidebar props))
       = Some history
       /\ Jsx.is_component "NavLink" history = true
       /\ Jsx.shown_values history
          = Jsx.shown_values (Sidebar.Sidebar props).
Proof.
  destruct props as [className theme count [[|] |]];
    unfold Jsx.shown_values; cbn;
    destruct (0 <? count)%Z; cbn;
    (split; [reflexivity |]); eexists; repeat split.
Qed.

(** ** The recipient list *)

Lemma lookup_app (name : string) (a b : Jsx.JsObject) :
  Jsx.lookup name (a ++ b)
  = match Jsx.lookup name b with
    | Some v => Some v
    | None => Jsx.lookup name a
    end.
Proof.
  induction a as [| [name' v] a IH]; cbn.
  - destruct (Jsx.lookup name b); reflexivity.
  - rewrite IH. destruct (Jsx.lookup name b); reflexivity.
Qed.

Lemma map_with_index_nth {A B} (f : A -> nat -> B) (l : list A) :
  forall from i,
    nth_error (SendRecipientList.map_with_index f from l) i
    = option_map (fun x => f x (from + i)) (nth_error l i).
Proof.
  induction l as [| x l IH]; intros from [| i]; cbn; try reflexivity.
  - rewrite Nat.add_0_r. reflexivity.
  - rewrite IH. rewrite Nat.add_succ_r. reflexivity.
Qed.

Lemma map_with_index_length {A B} (f : A -> nat -> B) (l : list A) :
  forall from, length (SendRecipientList.map_with_index f from l) = length l.
Proof.
  induction l as [| x l IH]; intros from; cbn; [| rewrite IH]; reflexivity.
Qed.

Lemma rendered_items (props : SendRecipientList.Props)
  (rows : list Jsx.JsObject) :
  forall from,
    flat_map Jsx.rendered
      (SendRecipientList.map_with_index
         (SendRecipientList.SendRecipientListItem props) from rows)
    = SendRecipientList.map_with_index
        (SendRecipientList.SendRecipientListItem props) from rows.
Proof.
  induction rows as [| row rows IH]; intros from; cbn; [reflexivity |].
  rewrite IH. reflexivity.
Qed.

Lemma items_are_items (props : SendRecipientList.Props)
  (rows : list Jsx.JsObject) :
  forall from,
    filter (Jsx.is_component "SendRecipientListItem")
      (SendRecipientList.map_with_index
         (SendRecipientList.SendRecipientListItem props) from rows)
    = SendRecipientList.map_with_index
        (SendRecipientList.SendRecipientListItem props) from rows.
Proof.
  induction rows as [| row rows IH]; intros from; cbn; [reflexivity |].
  rewrite IH. reflexivity.
Qed.

Lemma items_have_no_text (props : SendRecipientList.Props)
  (rows : list Jsx.JsObject) :
  forall from,
    flat_map (fun x => match x with Jsx.Text t => [t] | _ => [] end)
      (SendRecipientList.map_with_index
         (SendRecipientList.SendRecipientListItem props) from rows)
    = [].
Proof.
  induction rows as [| row rows IH]; intros from; cbn; [reflexivity |].
  apply IH.
Qed.

(** X12. The recipient list renders one [SendRecipientListItem] per row of
    [sendRowDetails] and no other: the item at position [i] is the one of
    the row at position [i], built with index [i], so an empty list of rows
    gives no item.  The text of the list is the three column headers,
    whatever the rows are. *)
Theorem recipient_list_items (props : SendRecipientList.Props) :
  filter (Jsx.is_component "SendRecipientListItem")
    (Jsx.rendered (SendRecipientList.SendRecipientList props))
  = SendRecipientList.renderRows props
  /\ length (SendRecipientList.renderRows props)
     = length (SendRecipientList.sendRowDetails props)
  /\ (forall i,
        nth_error (SendRecipientList.renderRows props) i
        = option_map
            (fun row => SendRecipientList.SendRecipientListItem props row i)
            (nth_error (SendRecipientList.sendRowDetails props) i))
  /\ Jsx.texts (SendRecipientList.SendRecipientList props)
     = ["Asset"; "Amount"; "Recipient Address"].
Proof.
  split; [| split; [| split]].
  - unfold SendRecipientList.SendRecipientList.
    cbn -[SendRecipientList.renderRows]. rewrite !app_nil_r.
    unfold SendRecipientList.renderRows.
    rewrite rendered_items. apply items_are_items.
  - apply map_with_index_length.
  - intros i. unfold SendRecipientList.renderRows.
    rewrite map_with_index_nth. reflexivity.
  - unfold Jsx.texts, SendRecipientList.SendRecipientList.
    cbn -[SendRecipientList.renderRows]. rewrite !app_nil_r.
    unfold SendRecipientList.renderRows.
    rewrite rendered_items, items_have_no_text. reflexivity.
Qed.

(** X13. In the element of a row, the seven attributes written after the
    spread ([index], [showConfirmSend], [removeRow], [updateRowField],
    [sendableAssets], [contacts], [clearErrors]) are the list's own, even
    when the row has a field of the same name; every other field of the row
    is passed on unchanged; and [key] is the row's [id], unless the row has
    a [key] field of its own, which then takes its place. *)
Theorem recipient_item_props (props : SendRecipientList.Props)
  (row : Jsx.JsObject) (index : nat) :
  map (fun name =>
         Jsx.attr name
           (SendRecipientList.SendRecipientListItem props row index))
      SendRecipientList.named_props
  = [Some (Jsx.JsNumber (Z.of_nat index));
     Some (Jsx.JsBool (SendRecipientList.showConfirmSend props));
     Some (SendRecipientList.removeRow props);
     Some (SendRecipientList.updateRowField props);
     Some (SendRecipientList.sendableAssets props);
     Some (SendRecipientList.contacts props);
     Some (SendRecipientList.clearErrors props)]
  /\ (forall name,
        ~ In name SendRecipientList.named_props ->
        name <> "key" ->
        Jsx.attr name
          (SendRecipientList.SendRecipientListItem props row index)
        = Jsx.lookup name row)
  /\ Jsx.attr "key"
       (SendRecipientList.SendRecipientListItem props row index)
     = Some match Jsx.lookup "key" row with
            | Some v => v
            | None => Jsx.get "id" row
            end.
Proof.
  unfold SendRecipientList.SendRecipientListItem. cbn [Jsx.attr].
  split; [| split].
  - cbn [map SendRecipientList.named_props].
    rewrite !app_assoc, !lookup_app. reflexivity.
  - intros name Hnamed Hkey.
    rewrite app_assoc, lookup_app.
    assert (Hnone :
              Jsx.lookup name
                [("index", Jsx.JsNumber (Z.of_nat index));
                 ("showConfirmSend",
                  Jsx.JsBool (SendRecipientList.showConfirmSend props));
                 ("removeRow", SendRecipientList.removeRow props);
                 ("updateRowField", SendRecipientList.updateRowField props);
                 ("sendableAssets", SendRecipientList.sendableAssets props);
                 ("contacts", SendRecipientList.contacts props);
                 ("clearErrors", SendRecipientList.clearErrors props)]
              = None).
    { cbn [Jsx.lookup].
      repeat match goal with
             | |- context [String.eqb ?a name] =>
                 destruct (String.eqb_spec a name) as [<- | _];
                 [exfalso; apply Hnamed; cbn; tauto |]
             end.
      reflexivity. }
    rewrite Hnone, lookup_app. cbn [Jsx.lookup].
    destruct (Jsx.lookup name row); [reflexivity |].
    destruct (String.eqb_spec "key" name) as [<- | _];
      [exfalso; apply Hkey; reflexivity | reflexivity].
  - rewrite app_assoc, lookup_app. cbn.
    destruct (Jsx.lookup "key" row); reflexivity.
Qed.
